(** * PyQtCmd: a shallow embedding of [src/PyQtCmd/__init__.py]

    The widgets of PyQtCmd ([QCmdLineEdit], [QCmdConsole] and its three
    streams) are modelled as records, and their methods as computations in
    a small state-and-exception monad: a Python method that mutates [self]
    and may raise is a function from the world to an outcome (an exception
    or a value) and the world as it is when the method returns or raises,
    so mutations done before a raise persist, as they do in Python.

    Characters are modelled as [ascii]; Python's [len] is [String.length]. *)

From Stdlib Require Import String Ascii List ZArith Lia Bool.
Import ListNotations.
Open Scope list_scope.

(** ** The state-and-exception monad *)

(** Python exceptions that the code can raise. *)
Inductive exn : Type :=
| IndexError
| ValueError.

Definition ST (W A : Type) : Type := W -> (exn + A) * W.

Definition ret {W A} (a : A) : ST W A := fun w => (inr a, w).

Definition raise {W A} (e : exn) : ST W A := fun w => (inl e, w).

Definition bind {W A B} (m : ST W A) (k : A -> ST W B) : ST W B :=
  fun w => match m w with
           | (inl e, w') => (inl e, w')
           | (inr a, w') => k a w'
           end.

Notation "x <- m ;; k" := (bind m (fun x => k))
  (at level 61, m at next level, right associativity).
Notation "m ;;; k" := (bind m (fun _ => k))
  (at level 61, right associativity).

Definition get {W} : ST W W := fun w => (inr w, w).
Definition put {W} (w : W) : ST W unit := fun _ => (inr tt, w).
Definition modify {W} (f : W -> W) : ST W unit := fun w => (inr tt, f w).

(** Lifts a fallible pure computation. *)
Definition lift {W A} (r : exn + A) : ST W A :=
  match r with
  | inl e => raise e
  | inr a => ret a
  end.

(** Runs an action [n] times in sequence, stopping at the first raise. *)
Fixpoint repeat_op {W} (n : nat) (op : ST W unit) : ST W unit :=
  match n with
  | O => ret tt
  | S n' => op ;;; repeat_op n' op
  end.

(** ** [collections.deque] of strings *)

Record deque : Type := mk_deque {
  items : list string;        (** index 0 is the left end *)
  maxlen : option nat
}.

(** [collections.deque(maxlen=m)]: a negative [maxlen] raises [ValueError]. *)
Definition deque_new (m : option Z) : exn + deque :=
  match m with
  | None => inr (mk_deque [] None)
  | Some m => if (m <? 0)%Z then inl ValueError
              else inr (mk_deque [] (Some (Z.to_nat m)))
  end.

(** [d.appendleft(x)]: on a full bounded deque the rightmost item is
    discarded; with [maxlen = 0] nothing is stored. *)
Definition deque_appendleft (x : string) (d : deque) : deque :=
  match maxlen d with
  | None => mk_deque (x :: items d) None
  | Some m => mk_deque (firstn m (x :: items d)) (Some m)
  end.

(** [d[i]] for a non-negative index. *)
Definition deque_getitem (d : deque) (i : nat) : exn + string :=
  match nth_error (items d) i with
  | Some x => inr x
  | None => inl IndexError
  end.

(** [d[i] = x] for a non-negative index. *)
Definition deque_setitem (d : deque) (i : nat) (x : string) : exn + deque :=
  if i <? length (items d)
  then inr (mk_deque (firstn i (items d) ++ x :: skipn (S i) (items d))
                     (maxlen d))
  else inl IndexError.

(** ** [QCmdLineEdit] *)

(** The text of the [QLineEdit] is kept split at the caret. *)
Record line_edit : Type := mk_line_edit {
  expand_tab : option Z;
  history : deque;
  history_index : nat;
  text_before_caret : string;
  text_after_caret : string
}.

(** [QLineEdit.text()] *)
Definition text (e : line_edit) : string :=
  (text_before_caret e ++ text_after_caret e)%string.

(** [QLineEdit.setText(t)]: replaces the text, caret at its end. *)
Definition setText (t : string) (e : line_edit) : line_edit :=
  mk_line_edit (expand_tab e) (history e) (history_index e) t ""%string.

(** [QLineEdit.insert(s)]: inserts at the caret, caret after the insertion. *)
Definition insert (s : string) (e : line_edit) : line_edit :=
  mk_line_edit (expand_tab e) (history e) (history_index e)
               (text_before_caret e ++ s)%string (text_after_caret e).

Definition set_history (d : deque) (e : line_edit) : line_edit :=
  mk_line_edit (expand_tab e) d (history_index e)
               (text_before_caret e) (text_after_caret e).

Definition set_history_index (i : nat) (e : line_edit) : line_edit :=
  mk_line_edit (expand_tab e) (history e) i
               (text_before_caret e) (text_after_caret e).

(** [QCmdLineEdit.__init__(max_history=..., expand_tab=...)] *)
Definition QCmdLineEdit_init (max_history : option Z) (expand_tab : option Z)
  : exn + line_edit :=
  match deque_new max_history with
  | inl e => inl e
  | inr d => inr (mk_line_edit expand_tab (deque_appendleft ""%string d) 0
                               ""%string ""%string)
  end.

(** [s * n] for a string [s] and an int [n] ([""] when [n <= 0]). *)
Fixpoint str_repeat (n : nat) (s : string) : string :=
  match n with
  | O => ""%string
  | S n' => (s ++ str_repeat n' s)%string
  end.

Definition str_mul (s : string) (n : Z) : string := str_repeat (Z.to_nat n) s.

(** Qt keys and events the widget distinguishes. *)
Inductive key : Type :=
| Key_Return
| Key_Up
| Key_Down
| Key_Tab
| Key_Other (code : Z).

Inductive event : Type :=
| KeyPress (k : key)
| KeyRelease (k : key)
| OtherEvent.

Section LineEdit.

(** The world the editor lives in, with access to the editor object. *)
Context {W : Type} (get_ed : W -> line_edit) (set_ed : line_edit -> W -> W).

(** The slot connected to [line_entered]: [emit] calls it synchronously. *)
Variable line_entered : string -> ST W unit.

Definition get_self : ST W line_edit := fun w => (inr (get_ed w), w).
Definition put_self (e : line_edit) : ST W unit :=
  fun w => (inr tt, set_ed e w).

Definition _update : ST W unit :=
  self <- get_self ;;
  t <- lift (deque_getitem (history self) (history_index self)) ;;
  put_self (setText t self).

Definition _intercept_tab (ev : event) : ST W bool :=
  match ev with
  | KeyPress Key_Tab =>
      self <- get_self ;;
      let tab := match expand_tab self with
                 | None => String (ascii_of_nat 9) ""%string
                 | Some n => str_mul " "%string n
                 end in
      put_self (insert tab self) ;;;
      ret true
  | _ => ret false
  end.

(** [event]: [super_event] stands for [QLineEdit.event], the host's default
    handling (where a tab press would move the focus). *)
Definition event_handler (super_event : event -> ST W bool) (ev : event)
  : ST W bool :=
  b <- _intercept_tab ev ;;
  if b then ret true else super_event ev.

(** [_enter_line] of the packaged variant ([src/PyQtCmd/__init__.py]). *)
Definition _enter_line : ST W unit :=
  self <- get_self ;;
  let t := text self in
  line_entered t ;;;
  if String.eqb t ""%string then ret tt
  else
    (self <- get_self ;;
     put_self (set_history_index 0 self) ;;;
     self <- get_self ;;
     d <- lift (deque_setitem (history self) 0 t) ;;
     put_self (set_history d self) ;;;
     self <- get_self ;;
     put_self (set_history (deque_appendleft ""%string (history self)) self) ;;;
     _update).

(** [_enter_line] of the other variant ([src/copy.py]): the history slot is
    written before the emit, and empty lines are recorded too. *)
Definition _enter_line_copy : ST W unit :=
  self <- get_self ;;
  let t := text self in
  put_self (set_history_index 0 self) ;;;
  self <- get_self ;;
  d <- lift (deque_setitem (history self) 0 t) ;;
  put_self (set_history d self) ;;;
  line_entered t ;;;
  self <- get_self ;;
  put_self (set_history (deque_appendleft ""%string (history self)) self) ;;;
  _update.

Definition _prev : ST W unit :=
  self <- get_self ;;
  if (Z.of_nat (history_index self)
        <? Z.of_nat (length (items (history self))) - 1)%Z
  then put_self (set_history_index (S (history_index self)) self) ;;; _update
  else ret tt.

Definition _next : ST W unit :=
  self <- get_self ;;
  if 0 <? history_index self
  then put_self (set_history_index (history_index self - 1) self) ;;; _update
  else ret tt.

(** [keyPressEvent]; [super_key] is [QLineEdit.keyPressEvent]. *)
Definition keyPressEvent (super_key : key -> ST W unit) (k : key) : ST W unit :=
  match k with
  | Key_Return => _enter_line
  | Key_Up => _prev
  | Key_Down => _next
  | _ => super_key k
  end.

(** The user replaces the field's text by typing [t]. *)
Definition type_text (t : string) : ST W unit :=
  self <- get_self ;;
  put_self (setText t self).

End LineEdit.

(** A [QCmdLineEdit] used on its own: the world is the editor together with
    the lines its [line_entered] signal has emitted. *)
Definition ed_world : Type := (line_edit * list string)%type.

Definition ed_get (w : ed_world) : line_edit := fst w.
Definition ed_set (e : line_edit) (w : ed_world) : ed_world := (e, snd w).

Definition record_emit (t : string) : ST ed_world unit :=
  fun w => (inr tt, (fst w, snd w ++ [t])).

(** ** [QCmdConsole] *)

(** The three [QTextCharFormat] objects built in [QCmdConsole.__init__]. *)
Inductive fmt : Type :=
| stdin_format
| stdout_format
| stderr_format.

(** The streams an interpreter writes its output through. *)
Inductive out_stream : Type :=
| Stdout
| Stderr.

Definition format_of (s : out_stream) : fmt :=
  match s with
  | Stdout => stdout_format
  | Stderr => stderr_format
  end.

Record console : Type := mk_console {
  current_format : fmt;               (** [display.currentCharFormat()] *)
  display : list (fmt * string);      (** runs inserted into [display] *)
  prompt : string;                    (** [self.prompt.text()] *)
  stdin_buffer : string;              (** [self.stdin.buffer.getvalue()] *)
  interp_calls : list string;         (** arguments of interpreter calls *)
  editor : line_edit                  (** [self.editor] *)
}.

Definition set_editor (e : line_edit) (c : console) : console :=
  mk_console (current_format c) (display c) (prompt c) (stdin_buffer c)
             (interp_calls c) e.

Definition set_prompt (p : string) (c : console) : console :=
  mk_console (current_format c) (display c) p (stdin_buffer c)
             (interp_calls c) (editor c).

Definition set_stdin_buffer (b : string) (c : console) : console :=
  mk_console (current_format c) (display c) (prompt c) b
             (interp_calls c) (editor c).

(** ['\n'], the line terminator that [_push] appends. *)
Definition nl : string := String "010"%char EmptyString.

(** [str.endswith('\n')] *)
Fixpoint ends_with_newline (s : string) : bool :=
  match s with
  | EmptyString => false
  | String ch EmptyString => Ascii.eqb ch "010"%char
  | String _ s' => ends_with_newline s'
  end.

Section Console.

(** Constructor arguments [prompt_text] and [line_continuing_prompt_text]. *)
Variables prompt_text line_continuing_prompt_text : string.

(** The interpreter callback: for a source text, the writes it makes to
    [stdout]/[stderr] while it runs, and its boolean result. *)
Variable interpreter : string -> list (out_stream * string) * bool.

Definition _display_text (t : string) (f : option fmt) : ST console unit :=
  modify (fun c =>
    let cf := match f with Some f => f | None => current_format c end in
    mk_console cf (display c ++ [(cf, t)]) (prompt c) (stdin_buffer c)
               (interp_calls c) (editor c)).

(** [Stream.write], shared by [OutputStream] (stdout, stderr). *)
Definition stream_write (f : fmt) (s : string) : ST console nat :=
  _display_text s (Some f) ;;;
  ret (String.length s).

Fixpoint write_all (outs : list (out_stream * string)) : ST console unit :=
  match outs with
  | [] => ret tt
  | (o, s) :: outs' => stream_write (format_of o) s ;;; write_all outs'
  end.

(** [self.interpreter(input_)]: the call is logged, then its writes run. *)
Definition call_interpreter (input : string) : ST console bool :=
  modify (fun c => mk_console (current_format c) (display c) (prompt c)
                              (stdin_buffer c) (interp_calls c ++ [input])
                              (editor c)) ;;;
  let (outs, more) := interpreter input in
  write_all outs ;;;
  ret more.

Definition _exec (input : string) : ST console bool :=
  more <- call_interpreter input ;;
  let p := if more then line_continuing_prompt_text else prompt_text in
  modify (set_prompt p) ;;;
  ret more.

(** [InputStream.write] *)
Definition input_write (s : string) : ST console nat :=
  _ <- stream_write stdin_format s ;;
  modify (fun c => set_stdin_buffer (stdin_buffer c ++ s)%string c) ;;;
  (if ends_with_newline s
   then c <- get ;;
        more <- _exec (stdin_buffer c) ;;
        if negb more then modify (set_stdin_buffer ""%string) else ret tt
   else ret tt) ;;;
  ret (String.length s).

Definition _push (line : string) : ST console unit :=
  c <- get ;;
  _display_text (prompt c) (Some stdin_format) ;;;
  _ <- input_write (line ++ nl)%string ;;
  ret tt.

(** The console's editor, with [line_entered] connected to [_push]. *)
Definition console_enter_line : ST console unit :=
  _enter_line editor set_editor _push.

(** The user types [line] into the editor and presses return. *)
Definition submit (line : string) : ST console unit :=
  type_text editor set_editor line ;;;
  console_enter_line.

End Console.

(** The runs that a list of interpreter writes adds to the display. *)
Definition runs (outs : list (out_stream * string)) : list (fmt * string) :=
  map (fun p => (format_of (fst p), snd p)) outs.

(** The current format after a list of interpreter writes. *)
Definition last_format (cf : fmt) (outs : list (out_stream * string)) : fmt :=
  fold_left (fun _ p => format_of (fst p)) outs cf.

(** [collections.deque]'s own invariant: never longer than [maxlen]. *)
Definition deque_wf (d : deque) : Prop :=
  match maxlen d with
  | None => True
  | Some m => length (items d) <= m
  end.

(** [text] is non-empty, [if text:] in the source. *)
Definition nonempty (t : string) : bool := negb (String.eqb t "").

(** A standalone editor receives [lines] one by one: each is typed into
    the field and return is pressed. *)
Fixpoint submit_lines (lines : list string) : ST ed_world unit :=
  match lines with
  | [] => ret tt
  | l :: ls =>
      type_text ed_get ed_set l ;;;
      _enter_line ed_get ed_set record_emit ;;;
      submit_lines ls
  end.

(** The history entries after constructing an editor with
    [max_history = C] and submitting [lines]; [None] if anything raised. *)
Definition history_entries (C : Z) (lines : list string) : option (list string) :=
  match QCmdLineEdit_init (Some C) None with
  | inl _ => None
  | inr e =>
      match submit_lines lines (e, []) with
      | (inr _, (e', _)) => Some (items (history e'))
      | (inl _, _) => None
      end
  end.

(** ** Construction of the console, and sequences of inputs *)

(** [QCmdConsole.__init__] with the defaults for the arguments not given:
    the display's current format is the one [stdin_format] copies, the
    editor is built with [max_history] (and may raise), the prompt label
    shows [prompt_text], and [init_text] is written to [stdout]. The
    display's [max_lines] is kept by Qt and not modelled. *)
Definition QCmdConsole_init (prompt_text : string) (max_history : Z)
  (init_text : option string) : exn + console :=
  match QCmdLineEdit_init (Some max_history) None with
  | inl e => inl e
  | inr ed =>
      let c0 := mk_console stdin_format [] prompt_text ""%string [] ed in
      match init_text with
      | None => inr c0
      | Some t => inr (snd (stream_write stdout_format t c0))
      end
  end.

(** A history that can take a submission without raising. *)
Definition history_ok (d : deque) : Prop :=
  items d <> [] /\ maxlen d <> Some 0.

(** An editor state the key handlers can work on: the index is a position
    of the history, which is within its [maxlen] and can take a line. *)
Definition editor_ok (e : line_edit) : Prop :=
  history_index e < length (items (history e)) /\
  deque_wf (history e) /\ maxlen (history e) <> Some 0.

(** The user submits [lines] one after another at a console; a raise
    ends the sequence. *)
Fixpoint submit_all (prompt_text line_continuing_prompt_text : string)
  (interpreter : string -> list (out_stream * string) * bool)
  (lines : list string) : ST console unit :=
  match lines with
  | [] => ret tt
  | l :: ls =>
      submit prompt_text line_continuing_prompt_text interpreter l ;;;
      submit_all prompt_text line_continuing_prompt_text interpreter ls
  end.

(** Reference for a sequence of submissions, written as a direct recursion
    from the console's docstring: each line is echoed after the current
    prompt, the interpreter gets everything submitted since it last
    returned [False], and its result picks the next prompt. The result is
    the interpreter calls, the display runs, the final buffer and prompt. *)
Fixpoint session_reference (prompt_text line_continuing_prompt_text : string)
  (interpreter : string -> list (out_stream * string) * bool)
  (buf prm : string) (lines : list string)
  : list string * list (fmt * string) * string * string :=
  match lines with
  | [] => ([], [], buf, prm)
  | l :: ls =>
      let b := (buf ++ (l ++ nl))%string in
      let more := snd (interpreter b) in
      let '(cs, rs, buf', prm') :=
        session_reference prompt_text line_continuing_prompt_text interpreter
          (if more then b else ""%string)
          (if more then line_continuing_prompt_text else prompt_text) ls in
      (b :: cs,
       [(stdin_format, prm); (stdin_format, (l ++ nl)%string)]
         ++ runs (fst (interpreter b)) ++ rs,
       buf', prm')
  end.

(** The standalone editor of [src/copy.py] receives [lines]. *)
Fixpoint submit_lines_copy (lines : list string) : ST ed_world unit :=
  match lines with
  | [] => ret tt
  | l :: ls =>
      type_text ed_get ed_set l ;;;
      _enter_line_copy ed_get ed_set record_emit ;;;
      submit_lines_copy ls
  end.

(** The history entries of the [src/copy.py] editor after [lines]. *)
Definition history_entries_copy (C : Z) (lines : list string)
  : option (list string) :=
  match QCmdLineEdit_init (Some C) None with
  | inl _ => None
  | inr e =>
      match submit_lines_copy lines (e, []) with
      | (inr _, (e', _)) => Some (items (history e'))
      | (inl _, _) => None
      end
  end.

(** The field's text after constructing an editor with [max_history = C],
    submitting [lines] and pressing up [k] times. *)
Definition recall (C : Z) (lines : list string) (k : nat) : option string :=
  match QCmdLineEdit_init (Some C) None with
  | inl _ => None
  | inr e =>
      match (submit_lines lines ;;; repeat_op k (_prev ed_get ed_set)) (e, [])
      with
      | (inr _, (e', _)) => Some (text e')
      | (inl _, _) => None
      end
  end.

(** ** Sample inputs *)

(** An interpreter in the style of [code.InteractiveInterpreter.runsource]
    on two inputs: ["if True:\n"] is incomplete, anything else is run and
    prints ["done"]. *)
Definition interp_if (s : string) : list (out_stream * string) * bool :=
  if String.eqb s ("if True:" ++ nl)%string then ([], true)
  else ([(Stdout, "done"%string)], false).

(** A console as [QCmdConsole.__init__] leaves it with the default
    [prompt_text] and [max_history], before any input. *)
Definition sample_console : console :=
  mk_console stdin_format [] "> "%string ""%string []
    (mk_line_edit None (mk_deque [""%string] (Some 100)) 0 ""%string ""%string).

(** An editor after submitting ["a"] and ["b"] and pressing up once. *)
Definition sample_editor : line_edit :=
  mk_line_edit None (mk_deque [""%string; "b"%string; "a"%string] (Some 100)) 1
    "b"%string ""%string.

(** ** Properties *)

Section ConsoleFacts.

Variables prompt_text line_continuing_prompt_text : string.
Variable interpreter : string -> list (out_stream * string) * bool.

Local Abbreviation input_write := (input_write prompt_text
                                 line_continuing_prompt_text interpreter).
Local Abbreviation _exec := (_exec prompt_text line_continuing_prompt_text
                           interpreter).
Local Abbreviation _push := (_push prompt_text line_continuing_prompt_text
                           interpreter).
Local Abbreviation submit := (submit prompt_text line_continuing_prompt_text
                            interpreter).

Lemma ends_with_newline_app_nl (s : string) :
  ends_with_newline (s ++ nl)%string = true.
Proof.
  induction s as [|ch s IH]; [reflexivity|].
  simpl. destruct (s ++ nl)%string eqn:E.
  - destruct s; discriminate.
  - exact IH.
Qed.

Lemma write_all_spec (outs : list (out_stream * string)) (c : console) :
  write_all outs c =
    (inr tt, mk_console (last_format (current_format c) outs)
                        (display c ++ runs outs) (prompt c)
                        (stdin_buffer c) (interp_calls c) (editor c)).
Proof.
  revert c. induction outs as [|[o s] outs IH]; intro c.
  - rewrite app_nil_r. now destruct c.
  - simpl. unfold bind at 1. simpl. rewrite IH. simpl.
    now rewrite <- app_assoc.
Qed.

Lemma exec_spec (input : string) (c : console) :
  _exec input c =
    (inr (snd (interpreter input)),
     mk_console (last_format (current_format c) (fst (interpreter input)))
       (display c ++ runs (fst (interpreter input)))
       (if snd (interpreter input) then line_continuing_prompt_text
        else prompt_text)
       (stdin_buffer c) (interp_calls c ++ [input]) (editor c)).
Proof.
  unfold _exec, call_interpreter, bind, modify, ret.
  destruct (interpreter input) as [outs more]. simpl.
  rewrite write_all_spec. reflexivity.
Qed.

Lemma input_write_spec (s : string) (c : console) :
  let b := (stdin_buffer c ++ s)%string in
  let e := ends_with_newline s in
  let more := snd (interpreter b) in
  input_write s c =
    (inr (String.length s),
     mk_console
       (if e then last_format stdin_format (fst (interpreter b))
        else stdin_format)
       (display c ++ [(stdin_format, s)]
                  ++ (if e then runs (fst (interpreter b)) else []))
       (if e then (if more then line_continuing_prompt_text else prompt_text)
        else prompt c)
       (if e then (if more then b else ""%string) else b)
       (if e then interp_calls c ++ [b] else interp_calls c)
       (editor c)).
Proof.
  intros b e more. subst b e more.
  unfold input_write, stream_write, _display_text, bind, modify, ret, get.
  unfold set_stdin_buffer. simpl.
  destruct (ends_with_newline s).
  - rewrite exec_spec. simpl. rewrite <- app_assoc.
    destruct (snd (interpreter (stdin_buffer c ++ s)%string)); reflexivity.
  - simpl. now rewrite ?app_nil_r.
Qed.

Lemma push_spec (line : string) (c : console) :
  let b := (stdin_buffer c ++ (line ++ nl))%string in
  let more := snd (interpreter b) in
  _push line c =
    (inr tt,
     mk_console (last_format stdin_format (fst (interpreter b)))
       (display c ++ [(stdin_format, prompt c); (stdin_format, line ++ nl)%string]
                  ++ runs (fst (interpreter b)))
       (if more then line_continuing_prompt_text else prompt_text)
       (if more then b else ""%string)
       (interp_calls c ++ [b])
       (editor c)).
Proof.
  intros b more. subst b more.
  unfold _push, bind at 1, get. simpl. unfold bind at 1, _display_text, modify.
  simpl. unfold bind at 1. rewrite input_write_spec. simpl.
  rewrite ends_with_newline_app_nl. simpl.
  now rewrite <- app_assoc.
Qed.

Lemma text_setText (t : string) (e : line_edit) : text (setText t e) = t.
Proof.
  unfold text, setText. simpl.
  induction t as [|ch t IH]; [reflexivity|]. simpl. now rewrite IH.
Qed.

(** Submitting a line changes the console's own fields exactly as [_push]
    does: what [_enter_line] does after the emit only touches the editor. *)
Lemma submit_spec (line : string) (c : console) :
  let b := (stdin_buffer c ++ (line ++ nl))%string in
  let more := snd (interpreter b) in
  let c' := snd (submit line c) in
  (current_format c' = last_format stdin_format (fst (interpreter b))) /\
  (display c' = display c ++ [(stdin_format, prompt c);
                              (stdin_format, line ++ nl)%string]
                          ++ runs (fst (interpreter b))) /\
  (prompt c' = if more then line_continuing_prompt_text else prompt_text) /\
  (stdin_buffer c' = if more then b else ""%string) /\
  (interp_calls c' = interp_calls c ++ [b]).
Proof.
  intros b more c'. subst c' b more.
  unfold submit, console_enter_line, type_text, _enter_line,
    bind, get_self, put_self.
  simpl. rewrite text_setText. rewrite push_spec. simpl.
  destruct (String.eqb line ""); [simpl; auto|].
  unfold lift, deque_setitem. simpl.
  destruct (0 <? length (items (history (editor c)))); simpl;
    [|auto].
  unfold _update, bind, get_self, lift, deque_getitem. simpl.
  destruct (items (deque_appendleft _ _)); unfold set_editor; simpl; auto.
Qed.

(** ** C8: [stdout] and [stderr] writes only reach the display

    For every string written to the output or error stream, the write
    inserts the string into the display with that stream's format and
    returns [len] of the string; the stdin buffer, the prompt, the
    interpreter calls and the editor (its history and history index
    included) are unchanged. *)
Theorem output_stream_write_frame (o : out_stream) (s : string) (c : console) :
  stream_write (format_of o) s c =
    (inr (String.length s),
     mk_console (format_of o) (display c ++ [(format_of o, s)]) (prompt c)
                (stdin_buffer c) (interp_calls c) (editor c)).
Proof. reflexivity. Qed.

(** ** C4: the stdin stream evaluates exactly on a terminated write

    For every string [s] written to the stdin stream, [s] is appended to
    the buffer; when [s] ends with ['\n'] the interpreter is called exactly
    once, on the whole buffer, which is kept if it asks for more input and
    emptied otherwise; when [s] does not end with ['\n'] (whatever newlines
    it contains) the interpreter is not called and the buffer is the old
    buffer followed by [s]. The write returns [len(s)]. *)
Theorem input_write_evaluates_iff_newline (s : string) (c : console) :
  let b := (stdin_buffer c ++ s)%string in
  let r := input_write s c in
  fst r = inr (String.length s) /\
  (if ends_with_newline s
   then interp_calls (snd r) = interp_calls c ++ [b] /\
        stdin_buffer (snd r) = (if snd (interpreter b) then b else ""%string)
   else interp_calls (snd r) = interp_calls c /\
        stdin_buffer (snd r) = b).
Proof.
  intros b r. subst r b. rewrite input_write_spec. simpl.
  split; [reflexivity|].
  destruct (ends_with_newline s); auto.
Qed.

(** ** C3: the echo of a submitted line precedes the interpreter's output

    Submitting ["x = 1"] while the prompt shows ["> "] inserts ["> "] and
    then ["x = 1\n"] into the display with the stdin format, followed only
    by what the interpreter writes while it evaluates the buffer; the echoed
    prompt is the one shown before the interpreter was called, whatever it
    returns. *)
Theorem submit_echo_before_output (c : console) (Hp : prompt c = "> "%string) :
  display (snd (submit "x = 1"%string c)) =
    display c ++ [(stdin_format, "> "%string);
                  (stdin_format, "x = 1" ++ nl)%string]
              ++ runs (fst (interpreter (stdin_buffer c ++ ("x = 1" ++ nl))%string)).
Proof.
  destruct (submit_spec "x = 1"%string c) as (_ & Hd & _).
  rewrite Hd, Hp. reflexivity.
Qed.

(** ** C1: continuation lines accumulate in the stdin buffer

    With an interpreter that asks for more input on ["if True:\n"] and
    completes on ["if True:\n    pass\n"], submitting ["if True:"] from an
    empty buffer calls it on ["if True:\n"], keeps that text in the buffer
    and shows the continuation prompt; then submitting ["    pass"] calls it
    on the whole two-line text, empties the buffer and shows the primary
    prompt again. *)
Theorem continuation_accumulation (c : console)
  (outs1 outs2 : list (out_stream * string))
  (H1 : interpreter ("if True:" ++ nl)%string = (outs1, true))
  (H2 : interpreter ("if True:" ++ nl ++ "    pass" ++ nl)%string = (outs2, false))
  (H0 : stdin_buffer c = ""%string) :
  let c1 := snd (submit "if True:"%string c) in
  let c2 := snd (submit "    pass"%string c1) in
  interp_calls c1 = interp_calls c ++ [("if True:" ++ nl)%string] /\
  stdin_buffer c1 = ("if True:" ++ nl)%string /\
  prompt c1 = line_continuing_prompt_text /\
  interp_calls c2 = interp_calls c ++ [("if True:" ++ nl)%string;
                                       ("if True:" ++ nl ++ "    pass" ++ nl)%string] /\
  stdin_buffer c2 = ""%string /\
  prompt c2 = prompt_text.
Proof.
  intros c1 c2.
  destruct (submit_spec "if True:"%string c) as (_ & _ & Hp1 & Hb1 & Hc1).
  fold c1 in Hp1, Hb1, Hc1.
  assert (E1 : (stdin_buffer c ++ ("if True:" ++ nl))%string
               = ("if True:" ++ nl)%string) by (rewrite H0; reflexivity).
  rewrite E1 in Hp1, Hb1, Hc1. rewrite H1 in Hp1, Hb1. cbn [snd] in Hp1, Hb1.
  destruct (submit_spec "    pass"%string c1) as (_ & _ & Hp2 & Hb2 & Hc2).
  fold c2 in Hp2, Hb2, Hc2.
  assert (E2 : (stdin_buffer c1 ++ ("    pass" ++ nl))%string
               = ("if True:" ++ nl ++ "    pass" ++ nl)%string)
    by (rewrite Hb1; reflexivity).
  rewrite E2 in Hp2, Hb2, Hc2. rewrite H2 in Hp2, Hb2. cbn [snd] in Hp2, Hb2.
  rewrite Hc1, <- app_assoc in Hc2.
  repeat split; assumption.
Qed.

End ConsoleFacts.

(** ** Editor facts *)

Module EditorFacts.

Local Abbreviation prev := (_prev ed_get ed_set).
Local Abbreviation next := (_next ed_get ed_set).

Lemma prev_step (e : line_edit) (log : list string) :
  prev (e, log) =
    if (Z.of_nat (history_index e)
          <? Z.of_nat (length (items (history e))) - 1)%Z
    then match nth_error (items (history e)) (S (history_index e)) with
         | Some t => (inr tt, (setText t (set_history_index
                                            (S (history_index e)) e), log))
         | None => (inl IndexError,
                    (set_history_index (S (history_index e)) e, log))
         end
    else (inr tt, (e, log)).
Proof.
  unfold _prev, _update, bind, get_self, put_self, lift, deque_getitem,
    ed_get, ed_set. simpl.
  destruct (_ <? _)%Z; [|reflexivity]. simpl.
  destruct (items (history e)) as [|x l]; [reflexivity|].
  destruct (nth_error l (history_index e)); reflexivity.
Qed.

Lemma next_step (e : line_edit) (log : list string) :
  next (e, log) =
    if 0 <? history_index e
    then match nth_error (items (history e)) (history_index e - 1) with
         | Some t => (inr tt, (setText t (set_history_index
                                            (history_index e - 1) e), log))
         | None => (inl IndexError,
                    (set_history_index (history_index e - 1) e, log))
         end
    else (inr tt, (e, log)).
Proof.
  unfold _next, _update, bind, get_self, put_self, lift, deque_getitem,
    ed_get, ed_set. simpl.
  destruct (0 <? _); [|reflexivity]. simpl.
  match goal with |- context [nth_error ?l ?i] => destruct (nth_error l i) end;
    reflexivity.
Qed.

Lemma prev_cond (i n : nat) :
  (Z.of_nat i <? Z.of_nat n - 1)%Z = (S i <? n).
Proof.
  destruct (Z.ltb_spec (Z.of_nat i) (Z.of_nat n - 1));
    destruct (Nat.ltb_spec (S i) n); lia.
Qed.

(** One step older from a state with a valid index. *)
Lemma prev_ok (e : line_edit) (log : list string) :
  S (history_index e) < length (items (history e)) ->
  exists t, nth_error (items (history e)) (S (history_index e)) = Some t /\
    prev (e, log) =
      (inr tt, (setText t (set_history_index (S (history_index e)) e), log)).
Proof.
  intro H. rewrite prev_step, prev_cond.
  destruct (Nat.ltb_spec (S (history_index e)) (length (items (history e))));
    [|lia].
  destruct (nth_error (items (history e)) (S (history_index e))) eqn:E.
  - eauto.
  - apply nth_error_None in E. lia.
Qed.

Lemma prev_stuck (e : line_edit) (log : list string) :
  length (items (history e)) <= S (history_index e) ->
  prev (e, log) = (inr tt, (e, log)).
Proof.
  intro H. rewrite prev_step, prev_cond.
  destruct (Nat.ltb_spec (S (history_index e)) (length (items (history e))));
    [lia|reflexivity].
Qed.

Lemma next_stuck (e : line_edit) (log : list string) :
  history_index e = 0 -> next (e, log) = (inr tt, (e, log)).
Proof. intro H. rewrite next_step, H. reflexivity. Qed.

Lemma repeat_stuck (op : ST ed_world unit) (w : ed_world) (n : nat) :
  op w = (inr tt, w) -> repeat_op n op w = (inr tt, w).
Proof.
  intro H. induction n as [|n IH]; [reflexivity|].
  simpl. unfold bind. rewrite H. exact IH.
Qed.

Lemma next_ok (e : line_edit) (log : list string) :
  0 < history_index e -> history_index e < length (items (history e)) ->
  exists t, nth_error (items (history e)) (history_index e - 1) = Some t /\
    next (e, log) =
      (inr tt, (setText t (set_history_index (history_index e - 1) e), log)).
Proof.
  intros H0 H. rewrite next_step.
  destruct (Nat.ltb_spec 0 (history_index e)); [|lia].
  destruct (nth_error (items (history e)) (history_index e - 1)) eqn:E.
  - eauto.
  - apply nth_error_None in E. lia.
Qed.

(** Enough [_prev] calls reach the oldest entry and stay there. *)
Lemma prev_reach (n : nat) (e : line_edit) (log : list string) :
  history_index e < length (items (history e)) ->
  length (items (history e)) <= S (history_index e) + n ->
  exists e', repeat_op n prev (e, log) = (inr tt, (e', log)) /\
    history e' = history e /\
    S (history_index e') = length (items (history e)) /\
    (e' = e \/ nth_error (items (history e')) (history_index e')
               = Some (text e')).
Proof.
  revert e. induction n as [|n IH]; intros e Hwf Hn.
  - exists e. repeat split; auto. lia.
  - destruct (Nat.ltb_spec (S (history_index e)) (length (items (history e))))
      as [Hlt|Hge].
    + destruct (prev_ok e log Hlt) as (t & Ht & Hp).
      set (e1 := setText t (set_history_index (S (history_index e)) e)).
      assert (Hh1 : history e1 = history e) by reflexivity.
      assert (Hi1 : history_index e1 = S (history_index e)) by reflexivity.
      destruct (Nat.ltb_spec (S (history_index e1)) (length (items (history e1))))
        as [Hlt1|Hge1].
      * destruct (IH e1) as (e' & Hr & Hh & Hi & Ht');
          [rewrite Hh1, Hi1; lia|rewrite Hh1, Hi1 in *; lia|].
        exists e'. simpl. unfold bind. fold e1 in Hp. rewrite Hp, Hr.
        rewrite Hh1 in Hh, Hi. repeat split; auto.
        destruct Ht' as [->|Ht']; [right|now right].
        transitivity (Some t); [exact Ht|]. unfold e1. now rewrite text_setText.
      * exists e1. simpl. unfold bind. fold e1 in Hp. rewrite Hp.
        rewrite (repeat_stuck _ _ n (prev_stuck e1 log Hge1)).
        repeat split; auto. rewrite Hh1 in *. lia.
        right. transitivity (Some t); [exact Ht|].
        unfold e1. now rewrite text_setText.
    + exists e. rewrite (repeat_stuck _ _ (S n) (prev_stuck e log Hge)).
      repeat split; auto. lia.
Qed.

(** Enough [_next] calls reach index 0 and stay there. *)
Lemma next_reach (n : nat) (e : line_edit) (log : list string) :
  history_index e < length (items (history e)) ->
  history_index e <= n ->
  exists e', repeat_op n next (e, log) = (inr tt, (e', log)) /\
    history e' = history e /\
    history_index e' = 0 /\
    (e' = e \/ nth_error (items (history e')) 0 = Some (text e')).
Proof.
  revert e. induction n as [|n IH]; intros e Hwf Hn.
  - exists e. repeat split; auto. lia.
  - destruct (Nat.eq_dec (history_index e) 0) as [H0|H0].
    + exists e. rewrite (repeat_stuck _ _ (S n) (next_stuck e log H0)).
      repeat split; auto.
    + destruct (next_ok e log ltac:(lia) Hwf) as (t & Ht & Hp).
      set (e1 := setText t (set_history_index (history_index e - 1) e)).
      assert (Hh1 : history e1 = history e) by reflexivity.
      assert (Hi1 : history_index e1 = history_index e - 1) by reflexivity.
      destruct (IH e1) as (e' & Hr & Hh & Hi & Ht');
        [rewrite Hh1, Hi1; lia|rewrite Hi1; lia|].
      exists e'. simpl. unfold bind. fold e1 in Hp. rewrite Hp, Hr.
      rewrite Hh1 in Hh. repeat split; auto.
      destruct Ht' as [->|Ht']; [right|now right].
      transitivity (Some t); [|unfold e1; now rewrite text_setText].
      rewrite Hi1 in Hi. rewrite <- Ht, Hi. reflexivity.
Qed.

End EditorFacts.

(** ** C5: history navigation clamps at both ends

    From every editor state whose history index is a valid position in the
    history, one [_prev] (up key) or one [_next] (down key) returns
    normally, keeps the index a valid position and leaves the history
    untouched. At the oldest entry any number of [_prev] calls, and at
    index 0 any number of [_next] calls, change nothing. Enough [_prev]
    calls from anywhere end on the oldest entry, with the field showing it
    if the cursor had to move. *)
Theorem navigation_clamped (e : line_edit) (log : list string)
  (Hwf : history_index e < length (items (history e))) :
  (exists e', _prev ed_get ed_set (e, log) = (inr tt, (e', log)) /\
              history e' = history e /\
              history_index e' < length (items (history e))) /\
  (exists e', _next ed_get ed_set (e, log) = (inr tt, (e', log)) /\
              history e' = history e /\
              history_index e' < length (items (history e))) /\
  (S (history_index e) = length (items (history e)) ->
   forall k, repeat_op k (_prev ed_get ed_set) (e, log) = (inr tt, (e, log))) /\
  (history_index e = 0 ->
   forall k, repeat_op k (_next ed_get ed_set) (e, log) = (inr tt, (e, log))) /\
  (forall n, length (items (history e)) <= S (history_index e) + n ->
   exists e', repeat_op n (_prev ed_get ed_set) (e, log) = (inr tt, (e', log)) /\
     history e' = history e /\
     S (history_index e') = length (items (history e)) /\
     (forall k, repeat_op k (_prev ed_get ed_set) (e', log)
                = (inr tt, (e', log))) /\
     (S (history_index e) < length (items (history e)) ->
      nth_error (items (history e)) (length (items (history e)) - 1)
      = Some (text e'))).
Proof.
  split; [|split; [|split; [|split]]].
  - destruct (Nat.ltb_spec (S (history_index e)) (length (items (history e))))
      as [Hlt|Hge].
    + destruct (EditorFacts.prev_ok e log Hlt) as (t & _ & Hp).
      eexists. split; [exact Hp|]. split; [reflexivity|]. exact Hlt.
    + exists e. split; [now apply EditorFacts.prev_stuck|]. auto.
  - destruct (Nat.eq_dec (history_index e) 0) as [H0|H0].
    + exists e. split; [now apply EditorFacts.next_stuck|]. auto.
    + destruct (EditorFacts.next_ok e log ltac:(lia) Hwf) as (t & _ & Hp).
      eexists. split; [exact Hp|]. split; [reflexivity|]. simpl. lia.
  - intros Hb k. apply EditorFacts.repeat_stuck, EditorFacts.prev_stuck. lia.
  - intros Hb k. apply EditorFacts.repeat_stuck, EditorFacts.next_stuck.
    exact Hb.
  - intros n Hn.
    destruct (EditorFacts.prev_reach n e log Hwf Hn) as (e' & Hr & Hh & Hi & Ht).
    exists e'. split; [exact Hr|]. split; [exact Hh|]. split; [exact Hi|].
    split.
    + intro k. apply EditorFacts.repeat_stuck, EditorFacts.prev_stuck.
      rewrite Hh. lia.
    + intro Hlt. destruct Ht as [->|Ht]; [lia|].
      rewrite Hh in Ht. rewrite <- Ht. f_equal. lia.
Qed.

Module SubmitFacts.

(** One return press on a non-empty line with a non-empty history, in the
    packaged variant. *)
Lemma enter_line_step (e : line_edit) (log : list string) (x : string)
  (tl : list string) :
  text e <> ""%string -> items (history e) = x :: tl ->
  _enter_line ed_get ed_set record_emit (e, log) =
    let h' := deque_appendleft ""%string
                (mk_deque (text e :: tl) (maxlen (history e))) in
    match nth_error (items h') 0 with
    | Some t => (inr tt, (setText t (set_history h' (set_history_index 0 e)),
                          log ++ [text e]))
    | None => (inl IndexError, (set_history h' (set_history_index 0 e),
                                log ++ [text e]))
    end.
Proof.
  intros Ht Hh.
  unfold _enter_line, _update, bind, get_self, put_self, lift, record_emit,
    ed_get, ed_set, deque_setitem, deque_getitem. simpl.
  apply String.eqb_neq in Ht. rewrite Ht. simpl. rewrite Hh. simpl.
  destruct (maxlen (history e)) as [[|m]|]; reflexivity.
Qed.

(** The same press in the variant of [src/copy.py]. *)
Lemma enter_line_copy_step (e : line_edit) (log : list string) (x : string)
  (tl : list string) :
  items (history e) = x :: tl ->
  _enter_line_copy ed_get ed_set record_emit (e, log) =
    let h' := deque_appendleft ""%string
                (mk_deque (text e :: tl) (maxlen (history e))) in
    match nth_error (items h') 0 with
    | Some t => (inr tt, (setText t (set_history h' (set_history_index 0 e)),
                          log ++ [text e]))
    | None => (inl IndexError, (set_history h' (set_history_index 0 e),
                                log ++ [text e]))
    end.
Proof.
  intros Hh.
  unfold _enter_line_copy, _update, bind, get_self, put_self, lift,
    record_emit, ed_get, ed_set, deque_setitem, deque_getitem. simpl.
  rewrite Hh. simpl.
  destruct (maxlen (history e)) as [[|m]|]; reflexivity.
Qed.

(** One return press on an empty line, packaged variant. *)
Lemma enter_line_empty_step (e : line_edit) (log : list string) :
  text e = ""%string ->
  _enter_line ed_get ed_set record_emit (e, log) = (inr tt, (e, log ++ [text e])).
Proof.
  intro Ht. unfold _enter_line, bind, get_self, record_emit, ed_get. simpl.
  rewrite Ht. reflexivity.
Qed.

Lemma firstn_cons_firstn (k : nat) (x : string) (R : list string) :
  firstn k (x :: firstn k R) = firstn k (x :: R).
Proof.
  destruct k as [|k]; [reflexivity|].
  change (x :: firstn k (firstn (S k) R) = x :: firstn k R).
  rewrite firstn_firstn. do 2 f_equal. lia.
Qed.

End SubmitFacts.

(** ** C7: a tab press inserts the configured text and is consumed

    With [expand_tab = 4] a tab key press inserts four spaces at the caret,
    with [expand_tab = None] a single ['\t']; in both cases [event] returns
    [True] without calling [QLineEdit.event] (the [super_event] argument
    does not occur in the result), so the default focus change never runs. *)
Theorem tab_press_inserts (h : deque) (i : nat) (before after : string)
  (log : list string) (super_event : event -> ST ed_world bool) :
  event_handler ed_get ed_set super_event (KeyPress Key_Tab)
    (mk_line_edit (Some 4%Z) h i before after, log) =
    (inr true, (mk_line_edit (Some 4%Z) h i (before ++ "    ")%string after,
                log)) /\
  event_handler ed_get ed_set super_event (KeyPress Key_Tab)
    (mk_line_edit None h i before after, log) =
    (inr true, (mk_line_edit None h i (before ++ String "009"%char "")%string
                  after, log)).
Proof. split; reflexivity. Qed.

(** ** C10: the packaged variant never records an empty line

    Pressing return on an empty field emits [line_entered("")] and changes
    nothing else: history, history index and field text are untouched. *)
Theorem empty_line_not_recorded (x : option Z) (h : deque) (i : nat)
  (log : list string) :
  _enter_line ed_get ed_set record_emit
    (mk_line_edit x h i ""%string ""%string, log) =
    (inr tt, (mk_line_edit x h i ""%string ""%string, log ++ [""%string])).
Proof. reflexivity. Qed.

(** ** C9: with [max_history = 1] neither variant keeps the line

    Both variants of [_enter_line] write the line into slot 0 and then
    [appendleft('')] into a deque of [maxlen] 1, which evicts it at once:
    after submitting ["a"] the history has no index 1, although
    [max_history = 1] is documented as one recallable entry. This is the
    defect of C2: the sentinel occupies one of the [max_history] slots. *)
Lemma enter_line_variants_capacity_1 :
  let w : ed_world :=
    (mk_line_edit None (mk_deque [""%string] (Some 1)) 0 "a"%string ""%string,
     []) in
  nth_error (items (history (fst (snd
    (_enter_line ed_get ed_set record_emit w))))) 1 = None /\
  nth_error (items (history (fst (snd
    (_enter_line_copy ed_get ed_set record_emit w))))) 1 = None.
Proof. split; reflexivity. Qed.

(** ** X13: both variants of [_enter_line] agree on non-empty lines

    For a non-empty line and a history that is non-empty and within its
    [maxlen], the packaged variant and the [src/copy.py] variant return the
    same outcome and the same final state: the line is emitted once, the
    index is 0, the field is empty, index 0 of the history holds the fresh
    [""], and index 1 holds the line unless [maxlen] is 1, where it has
    already been evicted. *)
Theorem enter_line_variants_agree (e : line_edit) (log : list string)
  (Ht : text e <> ""%string) (Hh : items (history e) <> [])
  (Hwf : deque_wf (history e)) :
  _enter_line ed_get ed_set record_emit (e, log) =
    _enter_line_copy ed_get ed_set record_emit (e, log) /\
  exists e', _enter_line ed_get ed_set record_emit (e, log)
             = (inr tt, (e', log ++ [text e])) /\
    history_index e' = 0 /\
    text e' = ""%string /\
    maxlen (history e') = maxlen (history e) /\
    nth_error (items (history e')) 0 = Some ""%string /\
    nth_error (items (history e')) 1 =
      match maxlen (history e) with
      | Some 1 => None
      | _ => Some (text e)
      end.
Proof.
  destruct (items (history e)) as [|x tl] eqn:Eh; [contradiction|].
  rewrite (SubmitFacts.enter_line_step e log x tl Ht Eh),
          (SubmitFacts.enter_line_copy_step e log x tl Eh).
  split; [reflexivity|].
  unfold deque_wf in Hwf. rewrite Eh in Hwf.
  unfold deque_appendleft. simpl.
  destruct (maxlen (history e)) as [[|[|m]]|] eqn:Em; simpl in *;
    [lia| | |];
    (eexists; split; [reflexivity|]; cbn; rewrite ?Em;
     repeat split; auto).
Qed.

(** With [max_history = 0] the history is empty and the variants differ:
    the packaged one emits the line, then raises [IndexError] on
    [history[0] = text]; the other raises there before emitting. *)
Remark enter_line_variants_capacity_0 :
  let e := mk_line_edit None (mk_deque [] (Some 0)) 0 "a"%string ""%string in
  _enter_line ed_get ed_set record_emit (e, []) =
    (inl IndexError, (e, ["a"%string])) /\
  _enter_line_copy ed_get ed_set record_emit (e, []) =
    (inl IndexError, (e, [])).
Proof. split; reflexivity. Qed.

(** ** C6 (as stated): [max_history = 0] is not rejected at construction

    [QCmdLineEdit(max_history=0)] is constructed normally, with an empty
    history (not even the [""] sentinel), and the first non-empty
    submission later emits the line and raises [IndexError]. *)
Lemma capacity_zero_accepted :
  QCmdLineEdit_init (Some 0%Z) None =
    inr (mk_line_edit None (mk_deque [] (Some 0)) 0 ""%string ""%string) /\
  _enter_line ed_get ed_set record_emit
    (mk_line_edit None (mk_deque [] (Some 0)) 0 "a"%string ""%string, []) =
    (inl IndexError,
     (mk_line_edit None (mk_deque [] (Some 0)) 0 "a"%string ""%string,
      ["a"%string])).
Proof. split; reflexivity. Qed.

(** ** C6 (amended): what construction does with each [max_history]

    A negative [max_history] is rejected at construction ([deque] raises
    [ValueError]); [max_history = 0] is accepted and gives an editor; a
    positive [max_history] gives the history [[""]]. *)
Theorem construction_by_capacity (x : option Z) :
  (forall m : Z, (m < 0)%Z -> QCmdLineEdit_init (Some m) x = inl ValueError) /\
  (exists e, QCmdLineEdit_init (Some 0%Z) x = inr e) /\
  (forall m : Z, (0 < m)%Z ->
     QCmdLineEdit_init (Some m) x =
       inr (mk_line_edit x (mk_deque [""%string] (Some (Z.to_nat m))) 0
                         ""%string ""%string)).
Proof.
  split; [|split].
  - intros m Hm. unfold QCmdLineEdit_init, deque_new.
    destruct (Z.ltb_spec m 0); [reflexivity|lia].
  - eexists. reflexivity.
  - intros m Hm. unfold QCmdLineEdit_init, deque_new.
    destruct (Z.ltb_spec m 0); [lia|].
    unfold deque_appendleft. simpl.
    destruct (Z.to_nat m) as [|[|k]] eqn:E; [lia|reflexivity|reflexivity].
Qed.

Module HistoryFacts.

(** The history invariant along a sequence of submissions: with
    [maxlen = m >= 1] the history is [""] followed by the [m - 1] most
    recent non-empty lines, newest first. *)
Lemma submit_lines_inv (lines : list string) (e : line_edit)
  (log : list string) (m : nat) (R : list string) :
  1 <= m -> maxlen (history e) = Some m ->
  items (history e) = ""%string :: firstn (m - 1) R ->
  exists e', submit_lines lines (e, log) = (inr tt, (e', log ++ lines)) /\
    maxlen (history e') = Some m /\
    items (history e') =
      ""%string :: firstn (m - 1) (rev (filter nonempty lines) ++ R).
Proof.
  revert e log R. induction lines as [|l ls IH]; intros e log R Hm Hmax Hit.
  - exists e. rewrite app_nil_r. auto.
  - set (e1 := setText l e).
    assert (Ht1 : text e1 = l) by apply text_setText.
    simpl submit_lines. unfold bind at 1.
    change (type_text ed_get ed_set l (e, log)) with
      ((inr tt, (e1, log)) : (exn + unit) * ed_world).
    cbv iota beta. unfold bind at 1.
    unfold nonempty at 1. simpl filter.
    destruct (String.eqb_spec l ""%string) as [El|El].
    + rewrite (SubmitFacts.enter_line_empty_step e1 log ltac:(congruence)).
      cbv iota beta. rewrite Ht1.
      destruct (IH e1 (log ++ [l]) R Hm Hmax Hit)
        as (e' & Hr & Hmax' & Hit').
      exists e'. rewrite Hr, <- app_assoc. auto.
    + rewrite <- Ht1 in El.
      rewrite (SubmitFacts.enter_line_step e1 log ""%string
                 (firstn (m - 1) R) El Hit).
      rewrite Ht1. cbn zeta.
      change (maxlen (history e1)) with (maxlen (history e)).
      rewrite Hmax. unfold deque_appendleft. cbn [maxlen items].
      destruct m as [|m']; [lia|].
      cbn [firstn nth_error].
      replace (S m' - 1) with m' in * by lia.
      rewrite SubmitFacts.firstn_cons_firstn.
      set (e2 := setText ""%string
                   (set_history (mk_deque (""%string :: firstn m' (l :: R))
                                          (Some (S m')))
                      (set_history_index 0 e1))).
      cbv iota beta.
      destruct (IH e2 (log ++ [l]) (l :: R) Hm eq_refl)
        as (e' & Hr & Hmax' & Hit').
      { reflexivity. }
      exists e'. rewrite Hr, <- app_assoc. split; [reflexivity|].
      split; [exact Hmax'|]. rewrite Hit'. cbn iota. simpl rev.
      rewrite <- app_assoc. reflexivity.
Qed.

End HistoryFacts.

(** ** C2: the sentinel takes one of the [max_history] slots

    [max_history] is documented as the number of entries the up key can
    recall, but the deque's [maxlen] is [max_history] and the [""]
    sentinel occupies one slot. With [max_history = 1], after submitting
    ["a"] the history is [[""]] and pressing up shows [""]; with
    [max_history = 2], after ["a"] and ["b"] the history is [[""; "b"]]
    and pressing up twice still shows ["b"]: ["a"] cannot be recalled. *)
Theorem history_capacity_off_by_one :
  history_entries 1 ["a"%string] = Some [""%string] /\
  recall 1 ["a"%string] 1 = Some ""%string /\
  history_entries 2 ["a"%string; "b"%string] = Some [""%string; "b"%string] /\
  recall 2 ["a"%string; "b"%string] 2 = Some "b"%string.
Proof. repeat split; reflexivity. Qed.

(** ** X12: the history after any sequence of submissions

    For [max_history = C >= 1] and every sequence of submitted lines, no
    submission raises and the history is the [""] sentinel followed by the
    [C - 1] most recent non-empty lines (all of them if there are fewer),
    newest first: the sentinel uses one of the [C] slots, and empty lines
    are never recorded. So the history has at most [C] entries. *)
Theorem history_bound (C : Z) (lines : list string) (HC : (1 <= C)%Z) :
  history_entries C lines =
    Some (""%string :: firstn (Z.to_nat C - 1) (rev (filter nonempty lines))) /\
  (Z.of_nat (length (""%string :: firstn (Z.to_nat C - 1)
                                  (rev (filter nonempty lines)))) <= C)%Z.
Proof.
  split.
  - unfold history_entries, QCmdLineEdit_init, deque_new.
    destruct (Z.ltb_spec C 0); [lia|].
    destruct (HistoryFacts.submit_lines_inv lines
                (mk_line_edit None
                   (deque_appendleft ""%string (mk_deque [] (Some (Z.to_nat C))))
                   0 ""%string ""%string)
                [] (Z.to_nat C) [] ltac:(lia) eq_refl)
      as (e' & Hr & _ & Hit).
    { unfold deque_appendleft. simpl.
      destruct (Z.to_nat C) as [|[|k]] eqn:E; [lia|reflexivity|reflexivity]. }
    rewrite Hr, Hit, app_nil_r. reflexivity.
  - simpl length. rewrite length_firstn. lia.
Qed.

(** ** Witnesses: the theorems with hypotheses, at concrete inputs *)

Lemma continuation_accumulation_witness :
  interp_if ("if True:" ++ nl)%string = ([], true) /\
  interp_if ("if True:" ++ nl ++ "    pass" ++ nl)%string =
    ([(Stdout, "done"%string)], false) /\
  stdin_buffer sample_console = ""%string /\
  (let c1 := snd (submit ">>> " "... " interp_if "if True:" sample_console) in
   let c2 := snd (submit ">>> " "... " interp_if "    pass" c1) in
   interp_calls c1 = interp_calls sample_console ++ [("if True:" ++ nl)%string] /\
   stdin_buffer c1 = ("if True:" ++ nl)%string /\
   prompt c1 = "... "%string /\
   interp_calls c2 = interp_calls sample_console ++
                       [("if True:" ++ nl)%string;
                        ("if True:" ++ nl ++ "    pass" ++ nl)%string] /\
   stdin_buffer c2 = ""%string /\
   prompt c2 = ">>> "%string).
Proof.
  split; [reflexivity|]. split; [reflexivity|]. split; [reflexivity|].
  exact (continuation_accumulation ">>> " "... " interp_if sample_console
           [] [(Stdout, "done"%string)] eq_refl eq_refl eq_refl).
Defined.

Lemma submit_echo_before_output_witness :
  prompt sample_console = "> "%string /\
  display (snd (submit "> " "... " interp_if "x = 1"%string sample_console)) =
    display sample_console ++
      [(stdin_format, "> "%string); (stdin_format, "x = 1" ++ nl)%string]
      ++ runs (fst (interp_if (stdin_buffer sample_console
                                ++ ("x = 1" ++ nl))%string)).
Proof.
  split; [reflexivity|].
  exact (submit_echo_before_output "> " "... " interp_if sample_console
           eq_refl).
Defined.

Lemma navigation_clamped_witness :
  history_index sample_editor < length (items (history sample_editor)) /\
  let e := sample_editor in
  (exists e', _prev ed_get ed_set (e, []) = (inr tt, (e', [])) /\
              history e' = history e /\
              history_index e' < length (items (history e))) /\
  (exists e', _next ed_get ed_set (e, []) = (inr tt, (e', [])) /\
              history e' = history e /\
              history_index e' < length (items (history e))) /\
  (S (history_index e) = length (items (history e)) ->
   forall k, repeat_op k (_prev ed_get ed_set) (e, []) = (inr tt, (e, []))) /\
  (history_index e = 0 ->
   forall k, repeat_op k (_next ed_get ed_set) (e, []) = (inr tt, (e, []))) /\
  (forall n, length (items (history e)) <= S (history_index e) + n ->
   exists e', repeat_op n (_prev ed_get ed_set) (e, []) = (inr tt, (e', [])) /\
     history e' = history e /\
     S (history_index e') = length (items (history e)) /\
     (forall k, repeat_op k (_prev ed_get ed_set) (e', [])
                = (inr tt, (e', []))) /\
     (S (history_index e) < length (items (history e)) ->
      nth_error (items (history e)) (length (items (history e)) - 1)
      = Some (text e'))).
Proof.
  assert (H : history_index sample_editor < length (items (history sample_editor)))
    by (simpl; lia).
  split; [exact H|].
  exact (navigation_clamped sample_editor [] H).
Defined.

Lemma enter_line_variants_agree_witness :
  let e := mk_line_edit None (mk_deque [""%string] (Some 100)) 0
             "a"%string ""%string in
  text e <> ""%string /\ items (history e) <> [] /\ deque_wf (history e) /\
  (_enter_line ed_get ed_set record_emit (e, []) =
     _enter_line_copy ed_get ed_set record_emit (e, []) /\
   exists e', _enter_line ed_get ed_set record_emit (e, [])
              = (inr tt, (e', [] ++ [text e])) /\
     history_index e' = 0 /\
     text e' = ""%string /\
     maxlen (history e') = maxlen (history e) /\
     nth_error (items (history e')) 0 = Some ""%string /\
     nth_error (items (history e')) 1 =
       match maxlen (history e) with
       | Some 1 => None
       | _ => Some (text e)
       end).
Proof.
  intro e.
  assert (Ht : text e <> ""%string) by discriminate.
  assert (Hh : items (history e) <> []) by discriminate.
  assert (Hw : deque_wf (history e)) by (unfold e, deque_wf; simpl; lia).
  split; [exact Ht|]. split; [exact Hh|]. split; [exact Hw|].
  exact (enter_line_variants_agree e [] Ht Hh Hw).
Defined.

Lemma history_bound_witness :
  (1 <= 2)%Z /\
  history_entries 2 ["a"%string; ""%string; "b"%string] =
    Some (""%string :: firstn (Z.to_nat 2 - 1)
                        (rev (filter nonempty ["a"%string; ""%string; "b"%string]))) /\
  (Z.of_nat (length (""%string :: firstn (Z.to_nat 2 - 1)
       (rev (filter nonempty ["a"%string; ""%string; "b"%string])))) <= 2)%Z.
Proof.
  assert (H : (1 <= 2)%Z) by lia.
  split; [exact H|].
  exact (history_bound 2 ["a"%string; ""%string; "b"%string] H).
Defined.

(** ** Further properties of the code *)

Module MoreFacts.

Lemma string_app_assoc (a b c : string) :
  ((a ++ b) ++ c)%string = (a ++ (b ++ c))%string.
Proof. induction a as [|ch a IH]; [reflexivity|]. simpl. now rewrite IH. Qed.

Lemma string_app_nil_r (a : string) : (a ++ "")%string = a.
Proof. induction a as [|ch a IH]; [reflexivity|]. simpl. now rewrite IH. Qed.

Lemma ends_with_newline_app (s1 s2 : string) :
  ends_with_newline s1 = false ->
  ends_with_newline (s1 ++ s2)%string = ends_with_newline s2.
Proof.
  induction s1 as [|ch s1 IH]; intro H; [reflexivity|].
  destruct s1 as [|ch' s1'].
  - simpl. destruct s2 as [|c2 s2']; [exact H|reflexivity].
  - change (ends_with_newline (String ch' (s1' ++ s2))%string
            = ends_with_newline s2).
    apply IH. exact H.
Qed.

Lemma str_repeat_length (n : nat) :
  String.length (str_repeat n " ") = n.
Proof. induction n as [|n IH]; [reflexivity|]. simpl. now rewrite IH. Qed.

Lemma str_repeat_spaces (n k : nat) (ch : ascii) :
  String.get k (str_repeat n " ") = Some ch -> ch = " "%char.
Proof.
  revert k. induction n as [|n IH]; intros k H; [destruct k; discriminate|].
  destruct k as [|k]; simpl in H; [congruence|]. exact (IH k H).
Qed.

(** [_prev] repeated [k] times from a valid index, without reaching the end. *)
Lemma prev_steps (k : nat) (e : line_edit) (log : list string) :
  history_index e + k < length (items (history e)) ->
  exists e', repeat_op k (_prev ed_get ed_set) (e, log) = (inr tt, (e', log)) /\
    history e' = history e /\
    history_index e' = history_index e + k /\
    (k = 0 \/ nth_error (items (history e)) (history_index e + k)
              = Some (text e')).
Proof.
  revert e. induction k as [|k IH]; intros e H.
  - exists e. repeat split; auto.
  - destruct (EditorFacts.prev_ok e log ltac:(lia)) as (t & Ht & Hp).
    set (e1 := setText t (set_history_index (S (history_index e)) e)).
    assert (Hh1 : history e1 = history e) by reflexivity.
    assert (Hi1 : history_index e1 = S (history_index e)) by reflexivity.
    destruct (IH e1) as (e' & Hr & Hh & Hi & Ht'); [rewrite Hh1, Hi1; lia|].
    exists e'. simpl. unfold bind. fold e1 in Hp. rewrite Hp, Hr.
    rewrite Hh1 in Hh, Ht'. rewrite Hi1 in Hi, Ht'.
    repeat split; auto; [lia|]. right.
    destruct Ht' as [->|Ht'].
    + simpl in Hr. injection Hr as <-.
      replace (history_index e + 1) with (S (history_index e)) by lia.
      rewrite Ht. unfold e1. now rewrite text_setText.
    + rewrite <- Ht'. f_equal. lia.
Qed.

(** The history invariant of [HistoryFacts.submit_lines_inv], together
    with the index, which stays 0. *)
Lemma submit_lines_index (lines : list string) (e : line_edit)
  (log : list string) (m : nat) (R : list string) :
  1 <= m -> maxlen (history e) = Some m ->
  items (history e) = ""%string :: firstn (m - 1) R ->
  history_index e = 0 ->
  exists e', submit_lines lines (e, log) = (inr tt, (e', log ++ lines)) /\
    history_index e' = 0 /\
    items (history e') =
      ""%string :: firstn (m - 1) (rev (filter nonempty lines) ++ R).
Proof.
  revert e log R. induction lines as [|l ls IH]; intros e log R Hm Hmax Hit H0.
  - exists e. rewrite app_nil_r. auto.
  - set (e1 := setText l e).
    assert (Ht1 : text e1 = l) by apply text_setText.
    simpl submit_lines. unfold bind at 1.
    change (type_text ed_get ed_set l (e, log)) with
      ((inr tt, (e1, log)) : (exn + unit) * ed_world).
    cbv iota beta. unfold bind at 1.
    unfold nonempty at 1. simpl filter.
    destruct (String.eqb_spec l ""%string) as [El|El].
    + rewrite (SubmitFacts.enter_line_empty_step e1 log ltac:(congruence)).
      cbv iota beta. rewrite Ht1.
      destruct (IH e1 (log ++ [l]) R Hm Hmax Hit H0)
        as (e' & Hr & Hi' & Hit').
      exists e'. rewrite Hr, <- app_assoc. auto.
    + rewrite <- Ht1 in El.
      rewrite (SubmitFacts.enter_line_step e1 log ""%string
                 (firstn (m - 1) R) El Hit).
      rewrite Ht1. cbn zeta.
      change (maxlen (history e1)) with (maxlen (history e)).
      rewrite Hmax. unfold deque_appendleft. cbn [maxlen items].
      destruct m as [|m']; [lia|].
      cbn [firstn nth_error].
      replace (S m' - 1) with m' in * by lia.
      rewrite SubmitFacts.firstn_cons_firstn.
      set (e2 := setText ""%string
                   (set_history (mk_deque (""%string :: firstn m' (l :: R))
                                          (Some (S m')))
                      (set_history_index 0 e1))).
      cbv iota beta.
      destruct (IH e2 (log ++ [l]) (l :: R) Hm eq_refl eq_refl eq_refl)
        as (e' & Hr & Hi' & Hit').
      exists e'. rewrite Hr, <- app_assoc. split; [reflexivity|].
      split; [exact Hi'|]. rewrite Hit'. simpl rev.
      rewrite <- app_assoc. reflexivity.
Qed.

(** The history of the [src/copy.py] editor along a sequence of
    submissions: every line is recorded, empty ones included. *)
Lemma submit_lines_copy_inv (lines : list string) (e : line_edit)
  (log : list string) (m : nat) (R : list string) :
  1 <= m -> maxlen (history e) = Some m ->
  items (history e) = ""%string :: firstn (m - 1) R ->
  exists e', submit_lines_copy lines (e, log) = (inr tt, (e', log ++ lines)) /\
    items (history e') = ""%string :: firstn (m - 1) (rev lines ++ R).
Proof.
  revert e log R. induction lines as [|l ls IH]; intros e log R Hm Hmax Hit.
  - exists e. rewrite app_nil_r. auto.
  - set (e1 := setText l e).
    assert (Ht1 : text e1 = l) by apply text_setText.
    simpl submit_lines_copy. unfold bind at 1.
    change (type_text ed_get ed_set l (e, log)) with
      ((inr tt, (e1, log)) : (exn + unit) * ed_world).
    cbv iota beta. unfold bind at 1.
    rewrite (SubmitFacts.enter_line_copy_step e1 log ""%string
               (firstn (m - 1) R) Hit).
    rewrite Ht1. cbn zeta.
    change (maxlen (history e1)) with (maxlen (history e)).
    rewrite Hmax. unfold deque_appendleft. cbn [maxlen items].
    destruct m as [|m']; [lia|].
    cbn [firstn nth_error].
    replace (S m' - 1) with m' in * by lia.
    rewrite SubmitFacts.firstn_cons_firstn.
    set (e2 := setText ""%string
                 (set_history (mk_deque (""%string :: firstn m' (l :: R))
                                        (Some (S m')))
                    (set_history_index 0 e1))).
    cbv iota beta.
    destruct (IH e2 (log ++ [l]) (l :: R) Hm eq_refl eq_refl)
      as (e' & Hr & Hit').
    exists e'. rewrite Hr, <- app_assoc. split; [reflexivity|].
    rewrite Hit'. simpl rev. rewrite <- app_assoc. reflexivity.
Qed.

Section ConsoleSubmit.

Variables prompt_text line_continuing_prompt_text : string.
Variable interpreter : string -> list (out_stream * string) * bool.

Local Abbreviation submit := (submit prompt_text line_continuing_prompt_text
                            interpreter).

(** A submission at a console whose editor history can take a line
    returns normally and leaves a history that can take the next one; an
    empty line leaves the history as it was. *)
Lemma console_submit_ok (line : string) (c : console) :
  history_ok (history (editor c)) ->
  fst (submit line c) = inr tt /\
  history_ok (history (editor (snd (submit line c)))) /\
  (line = ""%string -> history (editor (snd (submit line c))) = history (editor c)).
Proof.
  intros [Hne Hm0].
  unfold submit, console_enter_line, type_text, _enter_line,
    bind, get_self, put_self.
  simpl. rewrite text_setText. rewrite push_spec. simpl.
  destruct (String.eqb_spec line ""%string) as [El|El].
  - simpl. repeat split; auto.
  - simpl. unfold lift, deque_setitem. simpl.
    destruct (items (history (editor c))) as [|x tl] eqn:Eh; [contradiction|].
    simpl. unfold _update, bind, get_self, put_self, lift, deque_getitem.
    simpl. unfold deque_appendleft. simpl.
    destruct (maxlen (history (editor c))) as [[|m]|] eqn:Em;
      [contradiction| |]; simpl;
      (split; [reflexivity|]); (split; [|intro; contradiction]);
      split; simpl; try discriminate; rewrite ?Em; auto.
Qed.

End ConsoleSubmit.

End MoreFacts.

(** ** X1: a tab press inserts [expand_tab] spaces, none when it is not
    positive

    For every integer [expand_tab = n], a tab press inserts at the caret a
    string of [max(n, 0)] characters, all spaces (Python's [' ' * n]), so
    nothing at all when [n <= 0]; the press is still consumed: [event]
    returns [True] without calling [QLineEdit.event]. *)
Theorem tab_press_expand_any (n : Z) (h : deque) (i : nat)
  (before after : string) (log : list string)
  (super_event : event -> ST ed_world bool) :
  exists s,
    event_handler ed_get ed_set super_event (KeyPress Key_Tab)
      (mk_line_edit (Some n) h i before after, log) =
      (inr true, (mk_line_edit (Some n) h i (before ++ s)%string after, log)) /\
    String.length s = Z.to_nat n /\
    (forall k ch, String.get k s = Some ch -> ch = " "%char) /\
    ((n <= 0)%Z -> s = ""%string).
Proof.
  exists (str_mul " " n). split; [reflexivity|].
  split; [apply MoreFacts.str_repeat_length|].
  split; [intros k ch; apply MoreFacts.str_repeat_spaces|].
  intro Hn. unfold str_mul. replace (Z.to_nat n) with 0 by lia. reflexivity.
Qed.

(** ** X2: only a tab press is intercepted by [event]

    For every event other than a tab key press (a tab key release, any
    other key, any other event), [event] is exactly [QLineEdit.event] on
    the same event and state: the editor changes nothing itself. *)
Theorem non_tab_event_forwarded {W : Type} (get_ed : W -> line_edit)
  (set_ed : line_edit -> W -> W) (super_event : event -> ST W bool)
  (ev : event) (w : W) (Hev : ev <> KeyPress Key_Tab) :
  event_handler get_ed set_ed super_event ev w = super_event ev w.
Proof.
  unfold event_handler, bind, _intercept_tab, ret.
  destruct ev as [k|k|]; [destruct k|..]; try congruence; reflexivity.
Qed.

(** ** X3: up then down returns to the entry, not to the typed text

    From every state with an older entry above the index, [_prev] followed
    by [_next] returns normally to the same index with the history
    untouched, and the field shows that index's history entry, whatever the
    field held before: text typed at index 0 is replaced by the [""]
    sentinel. *)
Theorem prev_next_round_trip (e : line_edit) (log : list string)
  (Hi : S (history_index e) < length (items (history e))) :
  exists e', (_prev ed_get ed_set ;;; _next ed_get ed_set) (e, log)
             = (inr tt, (e', log)) /\
    history e' = history e /\
    history_index e' = history_index e /\
    nth_error (items (history e)) (history_index e) = Some (text e').
Proof.
  destruct (EditorFacts.prev_ok e log Hi) as (t & _ & Hp).
  set (e1 := setText t (set_history_index (S (history_index e)) e)) in Hp.
  destruct (EditorFacts.next_ok e1 log) as (t' & Ht' & Hn);
    [simpl; lia|simpl; exact Hi|].
  eexists. unfold bind. rewrite Hp, Hn.
  assert (Hi1 : history_index e1 - 1 = history_index e) by (simpl; lia).
  rewrite Hi1 in Ht' |- *.
  split; [reflexivity|]. split; [reflexivity|]. split; [reflexivity|].
  rewrite text_setText. exact Ht'.
Qed.

(** ** X4: pressing up [k] times recalls the [k]-th most recent line

    For [max_history = C >= 1] and any submitted lines, pressing up [k]
    times ([1 <= k], [k] at most the number of lines the history keeps)
    shows the [k]-th most recent non-empty submitted line. *)
Theorem recall_kth_recent (C : Z) (lines : list string) (k : nat)
  (HC : (1 <= C)%Z) (Hk1 : 1 <= k)
  (Hk2 : k <= length (firstn (Z.to_nat C - 1) (rev (filter nonempty lines)))) :
  recall C lines k = nth_error (rev (filter nonempty lines)) (k - 1).
Proof.
  unfold recall, QCmdLineEdit_init, deque_new.
  destruct (Z.ltb_spec C 0); [lia|].
  destruct (MoreFacts.submit_lines_index lines
              (mk_line_edit None
                 (deque_appendleft ""%string (mk_deque [] (Some (Z.to_nat C))))
                 0 ""%string ""%string)
              [] (Z.to_nat C) [] ltac:(lia) eq_refl)
    as (e' & Hr & Hi & Hit); [|reflexivity|].
  { unfold deque_appendleft. simpl.
    destruct (Z.to_nat C) as [|[|j]] eqn:E; [lia|reflexivity|reflexivity]. }
  rewrite app_nil_r in Hit.
  destruct (MoreFacts.prev_steps k e' ([] ++ lines)) as (e'' & Hp & Hh & Hi' & Ht).
  { rewrite Hi, Hit. simpl. lia. }
  unfold bind. rewrite Hr, Hp.
  destruct Ht as [|Ht]; [lia|].
  rewrite Hi, Hit in Ht. simpl in Ht.
  destruct k as [|k]; [lia|]. simpl in Ht |- *. rewrite Nat.sub_0_r.
  rewrite nth_error_firstn in Ht.
  destruct (Nat.ltb_spec k (Z.to_nat C - 1)); [|rewrite length_firstn in Hk2; lia].
  congruence.
Qed.

(** ** X5: the [src/copy.py] editor records every line, empty ones too

    For [max_history = C >= 1] and any submitted lines, the history of the
    [src/copy.py] variant is the [""] sentinel followed by the [C - 1] most
    recent submitted lines, empty ones included, newest first. *)
Theorem copy_history_records_all (C : Z) (lines : list string)
  (HC : (1 <= C)%Z) :
  history_entries_copy C lines =
    Some (""%string :: firstn (Z.to_nat C - 1) (rev lines)).
Proof.
  unfold history_entries_copy, QCmdLineEdit_init, deque_new.
  destruct (Z.ltb_spec C 0); [lia|].
  destruct (MoreFacts.submit_lines_copy_inv lines
              (mk_line_edit None
                 (deque_appendleft ""%string (mk_deque [] (Some (Z.to_nat C))))
                 0 ""%string ""%string)
              [] (Z.to_nat C) [] ltac:(lia) eq_refl)
    as (e' & Hr & Hit).
  { unfold deque_appendleft. simpl.
    destruct (Z.to_nat C) as [|[|j]] eqn:E; [lia|reflexivity|reflexivity]. }
  rewrite Hr, Hit, app_nil_r. reflexivity.
Qed.

(** ** X6: what constructing a console leaves

    [QCmdConsole(prompt_text, max_history, init_text)] raises [ValueError]
    for a negative [max_history]; otherwise the prompt shows
    [prompt_text], the stdin buffer is empty, the interpreter has not been
    called, the display holds only [init_text] in the stdout format (or
    nothing), and the editor is empty at index 0 with the history [[""]]
    ([[]] for [max_history = 0]). *)
Theorem console_init_effects (prompt_text : string) (max_history : Z)
  (init_text : option string) :
  ((max_history < 0)%Z ->
   QCmdConsole_init prompt_text max_history init_text = inl ValueError) /\
  ((0 <= max_history)%Z ->
   exists c, QCmdConsole_init prompt_text max_history init_text = inr c /\
     prompt c = prompt_text /\
     stdin_buffer c = ""%string /\
     interp_calls c = [] /\
     display c = match init_text with
                 | None => []
                 | Some t => [(stdout_format, t)]
                 end /\
     history_index (editor c) = 0 /\
     text (editor c) = ""%string /\
     items (history (editor c)) =
       (if (max_history =? 0)%Z then [] else [""%string])).
Proof.
  unfold QCmdConsole_init, QCmdLineEdit_init, deque_new.
  split; intro Hm; destruct (Z.ltb_spec max_history 0); try lia; [reflexivity|].
  assert (Hit : items (deque_appendleft ""%string
                         (mk_deque [] (Some (Z.to_nat max_history))))
                = (if (max_history =? 0)%Z then [] else [""%string])).
  { unfold deque_appendleft. simpl.
    destruct (Z.eqb_spec max_history 0) as [->|Hne]; [reflexivity|].
    destruct (Z.to_nat max_history) as [|j] eqn:E; [lia|simpl; now rewrite firstn_nil]. }
  destruct init_text as [t|]; eexists; (split; [reflexivity|]); simpl;
    repeat split; exact Hit.
Qed.

(** ** X7: a sequence of submissions at a console

    Whatever the interpreter does, submitting any lines one after another
    at a console whose history can take a line never raises, and it
    behaves as the direct recursion [session_reference]: each line
    (empty ones included) is echoed after the current prompt, the
    interpreter is called once per line on everything submitted since it
    last returned [False], its writes follow the echo, and its result
    picks the buffer and the next prompt. *)
Theorem submit_all_session (prompt_text line_continuing_prompt_text : string)
  (interpreter : string -> list (out_stream * string) * bool)
  (lines : list string) (c : console)
  (Hok : history_ok (history (editor c))) :
  let r := submit_all prompt_text line_continuing_prompt_text interpreter
             lines c in
  fst r = inr tt /\
  match session_reference prompt_text line_continuing_prompt_text interpreter
          (stdin_buffer c) (prompt c) lines with
  | (cs, rs, b, p) =>
      interp_calls (snd r) = interp_calls c ++ cs /\
      display (snd r) = display c ++ rs /\
      stdin_buffer (snd r) = b /\
      prompt (snd r) = p
  end.
Proof.
  intro r. subst r. revert c Hok.
  induction lines as [|l ls IH]; intros c Hok.
  - simpl. rewrite !app_nil_r. auto.
  - destruct (MoreFacts.console_submit_ok prompt_text
                line_continuing_prompt_text interpreter l c Hok)
      as (Hr & Hok1 & _).
    destruct (submit_spec prompt_text line_continuing_prompt_text
                interpreter l c) as (_ & Hd & Hp & Hb & Hc).
    set (c1 := snd (submit prompt_text line_continuing_prompt_text
                      interpreter l c)) in *.
    assert (Hs : submit_all prompt_text line_continuing_prompt_text
                   interpreter (l :: ls) c
                 = submit_all prompt_text line_continuing_prompt_text
                     interpreter ls c1).
    { simpl. unfold bind at 1. unfold c1.
      destruct (submit prompt_text line_continuing_prompt_text interpreter l c)
        as [o c'] eqn:E.
      simpl in Hr. subst o. reflexivity. }
    rewrite Hs. destruct (IH c1 Hok1) as [Hr' IHm]. split; [exact Hr'|].
    simpl.
    rewrite Hb, Hp in IHm.
    destruct (session_reference _ _ _ _ _ ls) as [[[cs rs] b] p].
    destruct IHm as (Hc' & Hd' & Hb' & Hp').
    rewrite Hc', Hd', Hc, Hd, <- !app_assoc. auto.
Qed.

(** ** X8: the stdin buffer holds exactly an unfinished statement

    Starting from an empty buffer and the primary prompt, after any
    sequence of submissions the console is in one of two states: the
    buffer is empty and the primary prompt shows, or the continuation
    prompt shows, the buffer is non-empty, it is the argument of the last
    interpreter call, and on it the interpreter asked for more input. *)
Theorem buffer_prompt_invariant
  (prompt_text line_continuing_prompt_text : string)
  (interpreter : string -> list (out_stream * string) * bool)
  (lines : list string) (c : console)
  (Hok : history_ok (history (editor c)))
  (Hb : stdin_buffer c = ""%string) (Hp : prompt c = prompt_text) :
  let c' := snd (submit_all prompt_text line_continuing_prompt_text
                   interpreter lines c) in
  (stdin_buffer c' = ""%string /\ prompt c' = prompt_text) \/
  (prompt c' = line_continuing_prompt_text /\
   stdin_buffer c' <> ""%string /\
   last (interp_calls c') ""%string = stdin_buffer c' /\
   snd (interpreter (stdin_buffer c')) = true).
Proof.
  intro c'. subst c'.
  assert (Inv : (stdin_buffer c = ""%string /\ prompt c = prompt_text) \/
    (prompt c = line_continuing_prompt_text /\
     stdin_buffer c <> ""%string /\
     last (interp_calls c) ""%string = stdin_buffer c /\
     snd (interpreter (stdin_buffer c)) = true)) by auto.
  clear Hb Hp. revert c Hok Inv.
  induction lines as [|l ls IH]; intros c Hok Inv; [exact Inv|].
  destruct (MoreFacts.console_submit_ok prompt_text
              line_continuing_prompt_text interpreter l c Hok)
    as (Hr & Hok1 & _).
  destruct (submit_spec prompt_text line_continuing_prompt_text
              interpreter l c) as (_ & _ & Hp1 & Hb1 & Hc1).
  set (c1 := snd (submit prompt_text line_continuing_prompt_text
                    interpreter l c)) in *.
  assert (Hs : submit_all prompt_text line_continuing_prompt_text
                 interpreter (l :: ls) c
               = submit_all prompt_text line_continuing_prompt_text
                   interpreter ls c1).
  { simpl. unfold bind at 1. unfold c1.
    destruct (submit prompt_text line_continuing_prompt_text interpreter l c)
      as [o c'] eqn:E.
    simpl in Hr. subst o. reflexivity. }
  rewrite Hs. apply (IH c1 Hok1).
  set (b := (stdin_buffer c ++ (l ++ nl))%string) in *.
  destruct (snd (interpreter b)) eqn:Em.
  - assert (Hne : b <> ""%string).
    { unfold b. destruct (stdin_buffer c); [destruct l|]; discriminate. }
    right. rewrite Hp1, Hb1, Hc1, last_last. auto.
  - left. auto.
Qed.

(** ** X9: splitting a stdin write does not change what is evaluated

    For a write [s1] that does not end with ['\n'] followed by any write
    [s2], the interpreter calls, the buffer, the prompt and the current
    format are those of the single write [s1 ++ s2]; the display gets the
    same text in the stdin format, as two runs instead of one, followed by
    the same interpreter output. *)
Theorem input_write_split (prompt_text line_continuing_prompt_text : string)
  (interpreter : string -> list (out_stream * string) * bool)
  (s1 s2 : string) (c : console) (H1 : ends_with_newline s1 = false) :
  let iw := input_write prompt_text line_continuing_prompt_text interpreter in
  let c12 := snd (iw s2 (snd (iw s1 c))) in
  let c' := snd (iw (s1 ++ s2)%string c) in
  interp_calls c12 = interp_calls c' /\
  stdin_buffer c12 = stdin_buffer c' /\
  prompt c12 = prompt c' /\
  current_format c12 = current_format c' /\
  exists rs,
    display c12 = display c ++ [(stdin_format, s1); (stdin_format, s2)] ++ rs /\
    display c' = display c ++ [(stdin_format, (s1 ++ s2)%string)] ++ rs.
Proof.
  intros iw c12 c'. subst iw c12 c'.
  rewrite (input_write_spec prompt_text line_continuing_prompt_text
             interpreter s1 c).
  rewrite H1. cbn [snd].
  rewrite (input_write_spec prompt_text line_continuing_prompt_text
             interpreter s2).
  rewrite (input_write_spec prompt_text line_continuing_prompt_text
             interpreter (s1 ++ s2)).
  rewrite (MoreFacts.ends_with_newline_app s1 s2 H1).
  cbn [snd stdin_buffer interp_calls prompt display current_format].
  rewrite MoreFacts.string_app_assoc, !app_nil_r.
  destruct (ends_with_newline s2);
    (split; [reflexivity|]); (split; [reflexivity|]);
    (split; [reflexivity|]); (split; [reflexivity|]);
    (eexists; split; [now rewrite <- app_assoc|reflexivity]).
Qed.

(** ** X10: an empty line reaches the interpreter but not the history

    At a console whose history can take a line, submitting an empty line
    sends ['\n'] after the buffer to the interpreter, like any other line,
    and leaves the editor's history as it was. *)
Theorem console_empty_line (prompt_text line_continuing_prompt_text : string)
  (interpreter : string -> list (out_stream * string) * bool) (c : console)
  (Hok : history_ok (history (editor c))) :
  let c' := snd (submit prompt_text line_continuing_prompt_text interpreter
                   ""%string c) in
  interp_calls c' = interp_calls c ++ [(stdin_buffer c ++ nl)%string] /\
  history (editor c') = history (editor c).
Proof.
  intro c'. subst c'.
  destruct (MoreFacts.console_submit_ok prompt_text
              line_continuing_prompt_text interpreter ""%string c Hok)
    as (_ & _ & Hh).
  destruct (submit_spec prompt_text line_continuing_prompt_text
              interpreter ""%string c) as (_ & _ & _ & _ & Hc).
  split; [exact Hc|]. now apply Hh.
Qed.

(** ** X11: the history keys never raise from a consistent editor

    For return, up and down, [keyPressEvent] on an editor whose index is a
    position of its history, within [maxlen] and with [maxlen <> 0],
    returns normally and leaves an editor with the same three properties;
    so no sequence of these keys from a freshly built editor with
    [max_history >= 1] raises [IndexError]. *)
Theorem key_press_keeps_editor_ok (k : key) (e : line_edit)
  (log : list string) (super_key : key -> ST ed_world unit)
  (Hk : k = Key_Return \/ k = Key_Up \/ k = Key_Down)
  (Hok : editor_ok e) :
  exists e' log',
    keyPressEvent ed_get ed_set record_emit super_key k (e, log)
      = (inr tt, (e', log')) /\
    editor_ok e'.
Proof.
  destruct Hok as (Hi & Hwf & Hm0).
  destruct Hk as [ -> | [ -> | -> ] ]; simpl.
  - destruct (String.eqb_spec (text e) ""%string) as [Ht|Ht].
    + rewrite (SubmitFacts.enter_line_empty_step e log Ht).
      do 2 eexists. split; [reflexivity|]. repeat split; auto.
    + destruct (items (history e)) as [|x tl] eqn:Eh; [simpl in Hi; lia|].
      rewrite (SubmitFacts.enter_line_step e log x tl Ht Eh).
      unfold deque_wf in Hwf. rewrite Eh in Hwf.
      unfold deque_appendleft. cbn zeta.
      destruct (maxlen (history e)) as [[|m]|] eqn:Em; [contradiction| |];
        cbn [maxlen items firstn nth_error];
        do 2 eexists; (split; [reflexivity|]);
        unfold editor_ok, deque_wf; cbn; rewrite ?length_firstn;
        repeat split; try lia; discriminate.
  - destruct (Nat.ltb_spec (S (history_index e)) (length (items (history e))))
      as [Hlt|Hge].
    + destruct (EditorFacts.prev_ok e log Hlt) as (t & _ & Hp).
      rewrite Hp. do 2 eexists. split; [reflexivity|].
      repeat split; auto.
    + rewrite (EditorFacts.prev_stuck e log Hge).
      do 2 eexists. split; [reflexivity|]. repeat split; auto.
  - destruct (Nat.eq_dec (history_index e) 0) as [H0|H0].
    + rewrite (EditorFacts.next_stuck e log H0).
      do 2 eexists. split; [reflexivity|]. repeat split; auto.
    + destruct (EditorFacts.next_ok e log ltac:(lia) Hi) as (t & _ & Hn).
      rewrite Hn. do 2 eexists. split; [reflexivity|].
      repeat split; auto. simpl. lia.
Qed.

(** ** Witnesses of the further properties *)

Lemma tab_press_expand_any_witness :
  exists s,
    event_handler ed_get ed_set (fun _ => ret false) (KeyPress Key_Tab)
      (mk_line_edit (Some (-2)%Z) (mk_deque [""%string] (Some 100)) 0
                    "x"%string ""%string, []) =
      (inr true, (mk_line_edit (Some (-2)%Z) (mk_deque [""%string] (Some 100)) 0
                    ("x" ++ s)%string ""%string, [])) /\
    String.length s = Z.to_nat (-2) /\
    (forall k ch, String.get k s = Some ch -> ch = " "%char) /\
    (((-2) <= 0)%Z -> s = ""%string).
Proof.
  exact (tab_press_expand_any (-2) (mk_deque [""%string] (Some 100)) 0
           "x"%string ""%string [] (fun _ => ret false)).
Defined.

Lemma non_tab_event_forwarded_witness :
  KeyRelease Key_Tab <> KeyPress Key_Tab /\
  event_handler ed_get ed_set (fun _ => ret false) (KeyRelease Key_Tab)
    (sample_editor, [])
  = (fun _ : event => @ret ed_world bool false) (KeyRelease Key_Tab)
      (sample_editor, []).
Proof.
  assert (H : KeyRelease Key_Tab <> KeyPress Key_Tab) by discriminate.
  split; [exact H|].
  exact (non_tab_event_forwarded ed_get ed_set (fun _ => ret false)
           (KeyRelease Key_Tab) (sample_editor, []) H).
Defined.

Lemma prev_next_round_trip_witness :
  S (history_index sample_editor) < length (items (history sample_editor)) /\
  exists e', (_prev ed_get ed_set ;;; _next ed_get ed_set) (sample_editor, [])
             = (inr tt, (e', [])) /\
    history e' = history sample_editor /\
    history_index e' = history_index sample_editor /\
    nth_error (items (history sample_editor)) (history_index sample_editor)
      = Some (text e').
Proof.
  assert (H : S (history_index sample_editor)
              < length (items (history sample_editor))) by (simpl; lia).
  split; [exact H|].
  exact (prev_next_round_trip sample_editor [] H).
Defined.

Lemma recall_kth_recent_witness :
  (1 <= 3)%Z /\ 1 <= 2 /\
  2 <= length (firstn (Z.to_nat 3 - 1)
                 (rev (filter nonempty ["a"%string; ""%string; "b"%string]))) /\
  recall 3 ["a"%string; ""%string; "b"%string] 2 =
    nth_error (rev (filter nonempty ["a"%string; ""%string; "b"%string])) (2 - 1).
Proof.
  assert (HC : (1 <= 3)%Z) by lia.
  assert (H1 : 1 <= 2) by lia.
  assert (H2 : 2 <= length (firstn (Z.to_nat 3 - 1)
                 (rev (filter nonempty ["a"%string; ""%string; "b"%string]))))
    by (vm_compute; lia).
  split; [exact HC|]. split; [exact H1|]. split; [exact H2|].
  exact (recall_kth_recent 3 ["a"%string; ""%string; "b"%string] 2 HC H1 H2).
Defined.

Lemma copy_history_records_all_witness :
  (1 <= 2)%Z /\
  history_entries_copy 2 ["a"%string; ""%string] =
    Some (""%string :: firstn (Z.to_nat 2 - 1) (rev ["a"%string; ""%string])).
Proof.
  assert (HC : (1 <= 2)%Z) by lia.
  split; [exact HC|].
  exact (copy_history_records_all 2 ["a"%string; ""%string] HC).
Defined.

Lemma console_init_effects_witness :
  ((100 < 0)%Z ->
   QCmdConsole_init ">>> " 100 (Some "hello"%string) = inl ValueError) /\
  ((0 <= 100)%Z ->
   exists c, QCmdConsole_init ">>> " 100 (Some "hello"%string) = inr c /\
     prompt c = ">>> "%string /\
     stdin_buffer c = ""%string /\
     interp_calls c = [] /\
     display c = [(stdout_format, "hello"%string)] /\
     history_index (editor c) = 0 /\
     text (editor c) = ""%string /\
     items (history (editor c)) =
       (if (100 =? 0)%Z then [] else [""%string])).
Proof.
  exact (console_init_effects ">>> " 100 (Some "hello"%string)).
Defined.

Lemma submit_all_session_witness :
  history_ok (history (editor sample_console)) /\
  let r := submit_all ">>> " "... " interp_if
             ["if True:"%string; "    pass"%string] sample_console in
  fst r = inr tt /\
  match session_reference ">>> " "... " interp_if
          (stdin_buffer sample_console) (prompt sample_console)
          ["if True:"%string; "    pass"%string] with
  | (cs, rs, b, p) =>
      interp_calls (snd r) = interp_calls sample_console ++ cs /\
      display (snd r) = display sample_console ++ rs /\
      stdin_buffer (snd r) = b /\
      prompt (snd r) = p
  end.
Proof.
  assert (H : history_ok (history (editor sample_console)))
    by (split; discriminate).
  split; [exact H|].
  exact (submit_all_session ">>> " "... " interp_if
           ["if True:"%string; "    pass"%string] sample_console H).
Defined.

Lemma buffer_prompt_invariant_witness :
  history_ok (history (editor sample_console)) /\
  stdin_buffer sample_console = ""%string /\
  prompt sample_console = "> "%string /\
  let c' := snd (submit_all "> " "... " interp_if ["if True:"%string]
                   sample_console) in
  (stdin_buffer c' = ""%string /\ prompt c' = "> "%string) \/
  (prompt c' = "... "%string /\
   stdin_buffer c' <> ""%string /\
   last (interp_calls c') ""%string = stdin_buffer c' /\
   snd (interp_if (stdin_buffer c')) = true).
Proof.
  assert (H : history_ok (history (editor sample_console)))
    by (split; discriminate).
  assert (Hb : stdin_buffer sample_console = ""%string) by reflexivity.
  assert (Hp : prompt sample_console = "> "%string) by reflexivity.
  split; [exact H|]. split; [exact Hb|]. split; [exact Hp|].
  exact (buffer_prompt_invariant "> " "... " interp_if ["if True:"%string]
           sample_console H Hb Hp).
Defined.

Lemma input_write_split_witness :
  ends_with_newline "x = "%string = false /\
  let iw := input_write "> " "... " interp_if in
  let c12 := snd (iw ("1" ++ nl)%string (snd (iw "x = "%string sample_console))) in
  let c' := snd (iw ("x = " ++ ("1" ++ nl))%string sample_console) in
  interp_calls c12 = interp_calls c' /\
  stdin_buffer c12 = stdin_buffer c' /\
  prompt c12 = prompt c' /\
  current_format c12 = current_format c' /\
  exists rs,
    display c12 = display sample_console ++
      [(stdin_format, "x = "%string); (stdin_format, ("1" ++ nl)%string)] ++ rs /\
    display c' = display sample_console ++
      [(stdin_format, ("x = " ++ ("1" ++ nl))%string)] ++ rs.
Proof.
  assert (H : ends_with_newline "x = "%string = false) by reflexivity.
  split; [exact H|].
  exact (input_write_split "> " "... " interp_if "x = "%string ("1" ++ nl)%string
           sample_console H).
Defined.

Lemma console_empty_line_witness :
  history_ok (history (editor sample_console)) /\
  let c' := snd (submit "> " "... " interp_if ""%string sample_console) in
  interp_calls c' = interp_calls sample_console
                      ++ [(stdin_buffer sample_console ++ nl)%string] /\
  history (editor c') = history (editor sample_console).
Proof.
  assert (H : history_ok (history (editor sample_console)))
    by (split; discriminate).
  split; [exact H|].
  exact (console_empty_line "> " "... " interp_if sample_console H).
Defined.

Lemma key_press_keeps_editor_ok_witness :
  (Key_Up = Key_Return \/ Key_Up = Key_Up \/ Key_Up = Key_Down) /\
  editor_ok sample_editor /\
  exists e' log',
    keyPressEvent ed_get ed_set record_emit (fun _ => ret tt) Key_Up
      (sample_editor, []) = (inr tt, (e', log')) /\
    editor_ok e'.
Proof.
  assert (Hk : Key_Up = Key_Return \/ Key_Up = Key_Up \/ Key_Up = Key_Down)
    by auto.
  assert (Hok : editor_ok sample_editor).
  { unfold editor_ok, deque_wf. simpl. split; [lia|]. split; [lia|].
    discriminate. }
  split; [exact Hk|]. split; [exact Hok|].
  exact (key_press_keeps_editor_ok Key_Up sample_editor [] (fun _ => ret tt)
           Hk Hok).
Defined.
